(** * Contact API: a shallow embedding of [backend/main.py] and [backend/models.py]

    The four Flask handlers are embedded as computations in a small
    state-and-exception monad over the persisted [contact] table and the
    SQLAlchemy session.  Python dictionaries are finite maps, the table is a
    finite map from primary key to row, and [jsonify] is a partial function
    on Python values. *)

From Stdlib Require Import Ascii.
From stdpp Require Import gmap strings list fin_maps sorting.

Set Warnings "-register-all,-clear-no-such-hyp".

Open Scope Z_scope.
Open Scope string_scope.

(** ** Python values *)

(** What a [db.String] attribute of a [Contact] holds, and what the JSON body
    carries for such a field: [None] (JSON [null], SQL [NULL]) or a [str].
    Bodies whose fields are numbers, booleans, arrays or objects are outside
    this model. *)
Inductive field :=
| PyNone
| PyStr (s : string).

#[global] Instance field_eq_dec : EqDecision field.
Proof. solve_decision. Defined.

(** Python truthiness, as used by [not first_name]. *)
Definition truthy (v : field) : bool :=
  match v with
  | PyNone => false
  | PyStr s => negb (String.eqb s "")
  end.

(** The objects handed to [jsonify]. *)
Inductive pyobj :=
| ONone
| OInt (n : Z)
| OStr (s : string)
| OList (l : list pyobj)
| ODict (kv : list (string * pyobj))
| OSet (l : list pyobj).

Definition of_field (v : field) : pyobj :=
  match v with
  | PyNone => ONone
  | PyStr s => OStr s
  end.

Definition of_id (i : option Z) : pyobj :=
  match i with
  | None => ONone
  | Some n => OInt n
  end.

(** ** models.py *)

Module models.

(** [class Contact(db.Model)]: the four mapped columns.  [id] is [None]
    until the row has been inserted. *)
Record Contact := {
  id : option Z;
  first_name : field;
  last_name : field;
  email : field
}.

Definition to_json (self : Contact) : pyobj :=
  ODict [ ("id", of_id (id self));
          ("firstName", of_field (first_name self));
          ("lastName", of_field (last_name self));
          ("email", of_field (email self)) ].

End models.
Export models.

#[global] Instance Contact_eq_dec : EqDecision Contact.
Proof. solve_decision. Defined.

(** ** Exceptions *)

Inductive exn :=
| IntegrityError      (* sqlalchemy.exc.IntegrityError *)
| StaleDataError      (* sqlalchemy.orm.exc.StaleDataError *)
| TypeError.          (* builtin *)

(** [isinstance(e, IntegrityError)] and [isinstance(e, SQLAlchemyError)]:
    both SQLAlchemy classes derive from [SQLAlchemyError]. *)
Definition is_IntegrityError (e : exn) : bool :=
  match e with IntegrityError => true | _ => false end.

Definition is_SQLAlchemyError (e : exn) : bool :=
  match e with IntegrityError | StaleDataError => true | TypeError => false end.

(** ** The database *)

(** A unit of work recorded by the session and not yet flushed. *)
Inductive change :=
| Insert (c : Contact)             (* db.session.add(c) *)
| Update (k : Z) (c : Contact)     (* attribute assignment on a loaded row *)
| Delete (k : Z).                  (* db.session.delete(c) *)

(** The committed [contact] table, keyed by primary key, and the session's
    pending changes. *)
Record world := {
  table : gmap Z Contact;
  session : list change
}.

Inductive outcome (A : Type) :=
| Ok (a : A)
| Raise (e : exn).
Arguments Ok {A} a.
Arguments Raise {A} e.

Definition M (A : Type) : Type := world → outcome A * world.

#[global] Instance M_ret : MRet M := λ A a w, (Ok a, w).
#[global] Instance M_bind : MBind M := λ A B f m w,
  match m w with
  | (Ok a, w') => f a w'
  | (Raise e, w') => (Raise e, w')
  end.

Definition raise {A} (e : exn) : M A := λ w, (Raise e, w).

(** [try: m except ...]: the outcome of [m] is handed to the handler
    clauses as a value. *)
Definition try {A} (m : M A) : M (outcome A) := λ w,
  match m w with
  | (r, w') => (Ok r, w')
  end.


(** *** Constraints declared by the columns of [Contact]

    Modelled from the spec: the storage engine behind [db] (the [config]
    module is not part of the sources).  The table has the columns
    [id (PK, auto)], [first_name], [last_name], [email (unique)]; the three
    string columns are declared [nullable=False].  A statement that violates
    [NOT NULL] or [UNIQUE] raises [IntegrityError] and changes nothing; an
    [UPDATE] that matches no row raises [StaleDataError], a [DELETE] that
    matches no row changes nothing.  The declared lengths (80, 120) are not
    constraints of that table. *)

Definition is_null (v : field) : bool :=
  match v with PyNone => true | PyStr _ => false end.

(** No row of [t] carries the e-mail [e]. *)
Definition email_free (t : gmap Z Contact) (e : field) : Prop :=
  map_Forall (λ _ c, email c ≠ e) t.

(** The key given to a new row: one more than the largest key in use. *)
Definition next_id (t : gmap Z Contact) : Z :=
  1 + map_fold (λ k _ m, Z.max k m) 0 t.

Definition with_id (k : Z) (c : Contact) : Contact :=
  {| id := Some k; first_name := first_name c;
     last_name := last_name c; email := email c |}.

(** A column of an [UPDATE] is written, and its constraints are checked,
    only when its value differs from the stored one. *)
Definition sets_null (old new : field) : bool :=
  is_null new && negb (bool_decide (old = new)).

Definition flush1 (t : gmap Z Contact) (ch : change)
  : outcome (gmap Z Contact) :=
  match ch with
  | Insert c =>
      if is_null (first_name c) || is_null (last_name c) || is_null (email c)
      then Raise IntegrityError
      else if bool_decide (email_free t (email c))
      then let k := next_id t in Ok (<[k := with_id k c]> t)
      else Raise IntegrityError
  | Update k c =>
      match t !! k with
      | None => Raise StaleDataError
      | Some old =>
          if sets_null (first_name old) (first_name c)
             || sets_null (last_name old) (last_name c)
             || sets_null (email old) (email c)
          then Raise IntegrityError
          else if bool_decide (email old = email c)
                  || bool_decide (email_free t (email c))
          then Ok (<[k := c]> t)
          else Raise IntegrityError
      end
  | Delete k => Ok (delete k t)
  end.

(** The pending changes are applied in order inside one transaction. *)
Fixpoint flush (t : gmap Z Contact) (chs : list change)
  : outcome (gmap Z Contact) :=
  match chs with
  | [] => Ok t
  | ch :: chs =>
      match flush1 t ch with
      | Ok t' => flush t' chs
      | Raise e => Raise e
      end
  end.

(** *** [Contact.query] and [db.session] *)

(** The order of a table scan: ascending primary key. *)
Definition key_le (x y : Z * Contact) : Prop := (x.1 ≤ y.1)%Z.

#[global] Instance key_le_dec x y : Decision (key_le x y).
Proof. unfold key_le. apply _. Defined.

Module query.
Definition all : M (list Contact) := λ w,
  (Ok (merge_sort key_le (map_to_list (table w))).*2, w).
(** The lookup by primary key, for an [int] the driver can bind. *)
Definition get (k : Z) : M (option Contact) := λ w,
  (Ok (table w !! k), w).
End query.

Module session_.
Definition add (c : Contact) : M unit := λ w,
  (Ok (), {| table := table w; session := session w ++ [Insert c] |}).
(** The session tracks the loaded object [k]; [c] is its state after the
    handler's attribute assignments. *)
Definition dirty (k : Z) (c : Contact) : M unit := λ w,
  (Ok (), {| table := table w; session := session w ++ [Update k c] |}).
Definition delete (k : Z) : M unit := λ w,
  (Ok (), {| table := table w; session := session w ++ [Delete k] |}).
(** A failed flush rolls the transaction back: the committed table is
    as it was and the session holds no pending change.  Until [rollback]
    is called the session accepts no further statement; no view issues
    one. *)
Definition commit : M unit := λ w,
  match flush (table w) (session w) with
  | Ok t' => (Ok (), {| table := t'; session := [] |})
  | Raise e => (Raise e, {| table := table w; session := [] |})
  end.
Definition rollback : M unit := λ w,
  (Ok (), {| table := table w; session := [] |}).
End session_.

(** ** flask *)

(** [json.dumps] has no encoding for a [set]. *)
Fixpoint serializable (o : pyobj) : bool :=
  match o with
  | ONone | OInt _ | OStr _ => true
  | OList l => forallb serializable l
  | ODict kv => forallb (λ p, match p with (_, v) => serializable v end) kv
  | OSet _ => false
  end.

Definition jsonify (o : pyobj) : M pyobj :=
  if serializable o then mret o else raise TypeError.

(** A view's return value: the JSON document and the status code. *)
Definition response : Type := pyobj * Z.

(** [dict.get(key, default)]; [default] is [None] when omitted. *)
Definition dict_get (d : gmap string field) (key : string) (dflt : field)
  : field :=
  match d !! key with
  | Some v => v
  | None => dflt
  end.

Definition message (s : string) : pyobj := ODict [("message", OStr s)].

(** ** main.py *)

(** A view that returns the response alone is answered with status 200. *)
Definition get_contacts : M response :=
  contacts ← query.all;
  let json_contacts := map to_json contacts in
  body ← jsonify (ODict [("contacts", OList json_contacts)]);
  mret (body, 200).

Definition create_contact (json : gmap string field) : M response :=
  let first_name := dict_get json "firstName" PyNone in
  let last_name := dict_get json "lastName" PyNone in
  let email := dict_get json "email" PyNone in
  if negb (truthy first_name) || negb (truthy last_name) || negb (truthy email)
  then
    body ← jsonify
      (message "You must include a first name, lasat name and email");
    mret (body, 400)
  else
    let new_contact :=
      {| id := None; first_name := first_name;
         last_name := last_name; email := email |} in
    r ← try (session_.add new_contact;; session_.commit);
    match r with
    | Raise e =>
        if is_IntegrityError e then
          session_.rollback;;
          body ← jsonify (message
            "Integrity error: a contact with similar details already exists.");
          mret (body, 400)
        else if is_SQLAlchemyError e then
          session_.rollback;;
          body ← jsonify (message "Database error occurred.");
          mret (body, 500)
        else raise e
    | Ok _ =>
        body ← jsonify (message "User Created");
        mret (body, 201)
    end.

Definition updata_contact (user_id : Z) (data : gmap string field)
  : M response :=
  contact ← query.get user_id;
  match contact with
  | None =>
      body ← jsonify (message "User not found");
      mret (body, 400)
  | Some contact =>
      let contact :=
        {| id := id contact;
           first_name := dict_get data "firstName" (first_name contact);
           last_name := last_name contact;
           email := email contact |} in
      let contact :=
        {| id := id contact;
           first_name := first_name contact;
           last_name := dict_get data "lastName" (last_name contact);
           email := email contact |} in
      let contact :=
        {| id := id contact;
           first_name := first_name contact;
           last_name := last_name contact;
           email := dict_get data "email" (email contact) |} in
      session_.dirty user_id contact;;
      session_.commit;;
      body ← jsonify (OSet [OStr "User updates!!!"]);
      mret (body, 200)
  end.

Definition delete_contact (user_id : Z) : M response :=
  contact ← query.get user_id;
  match contact with
  | None =>
      body ← jsonify (message "User not found");
      mret (body, 400)
  | Some _ =>
      session_.delete user_id;;
      session_.commit;;
      body ← jsonify (OSet [OStr "User deleted!!!"]);
      mret (body, 200)
  end.

(** ** Serving a request *)

(** A request that reached its view; [user_id] is the value the route's
    converter handed to it. *)
Inductive request :=
| GET_contacts
| POST_create_contact (json : gmap string field)
| PATCH_update_contact (user_id : Z) (json : gmap string field)
| DELETE_delete_contact (user_id : Z).

Definition route (r : request) : M response :=
  match r with
  | GET_contacts => get_contacts
  | POST_create_contact json => create_contact json
  | PATCH_update_contact user_id json => updata_contact user_id json
  | DELETE_delete_contact user_id => delete_contact user_id
  end.

(** Every request runs its view with a session of its own, which is
    discarded with the request; only the committed table lives on. *)
Definition fresh (t : gmap Z Contact) : world :=
  {| table := t; session := [] |}.

Definition serve (r : request) (t : gmap Z Contact)
  : outcome response * gmap Z Contact :=
  match route r (fresh t) with
  | (o, w) => (o, table w)
  end.

(** The status the client sees: the view's, or 500 when the view raised. *)
Definition http_status (o : outcome response) : Z :=
  match o with
  | Ok (_, status) => status
  | Raise _ => 500
  end.

(** *** The two rules with [<int:user_id>]

    The converter matches a path segment of one or more decimal digits and
    hands the view its value; any other segment matches no rule and the
    router answers 404 without calling a view. *)
Definition is_digit (a : ascii) : bool :=
  (48 <=? nat_of_ascii a)%nat && (nat_of_ascii a <=? 57)%nat.

Fixpoint digits_value (acc : Z) (seg : string) : option Z :=
  match seg with
  | EmptyString => Some acc
  | String a seg =>
      if is_digit a
      then digits_value (10 * acc + (Z.of_nat (nat_of_ascii a) - 48)) seg
      else None
  end.

Definition int_converter (seg : string) : option Z :=
  match seg with
  | EmptyString => None
  | _ => digits_value 0 seg
  end.

(** The key is a signed 64-bit INTEGER: asked to bind a larger [int], the
    driver raises [OverflowError] out of [Contact.query.get], before the
    view has done anything else. *)
Definition bindable (user_id : Z) : bool := (user_id <? 2 ^ 63)%Z.

(** PATCH /update_contact/[seg] and DELETE /delete_contact/[seg]: the
    status answered and the table left. *)
Definition http_PATCH_update_contact
    (seg : string) (json : gmap string field) (t : gmap Z Contact)
  : Z * gmap Z Contact :=
  match int_converter seg with
  | None => (404, t)
  | Some user_id =>
      if bindable user_id
      then (http_status (serve (PATCH_update_contact user_id json) t).1,
            (serve (PATCH_update_contact user_id json) t).2)
      else (500, t)
  end.

Definition http_DELETE_delete_contact (seg : string) (t : gmap Z Contact)
  : Z * gmap Z Contact :=
  match int_converter seg with
  | None => (404, t)
  | Some user_id =>
      if bindable user_id
      then (http_status (serve (DELETE_delete_contact user_id) t).1,
            (serve (DELETE_delete_contact user_id) t).2)
      else (500, t)
  end.

(** Tables that the API can produce, starting from the empty one. *)
Inductive reachable : gmap Z Contact → Prop :=
| reachable_empty : reachable ∅
| reachable_serve r t :
    reachable t → reachable (serve r t).2.

Definition unique_emails (t : gmap Z Contact) : Prop :=
  ∀ i j c d, t !! i = Some c → t !! j = Some d → email c = email d → i = j.

(** ** Vocabulary of the statements *)

Definition msg_missing : pyobj :=
  message "You must include a first name, lasat name and email".
Definition msg_integrity : pyobj :=
  message "Integrity error: a contact with similar details already exists.".

(** The row that [create_contact] hands to the session for [json]. *)
Definition new_contact_of (json : gmap string field) : Contact :=
  {| id := None;
     first_name := dict_get json "firstName" PyNone;
     last_name := dict_get json "lastName" PyNone;
     email := dict_get json "email" PyNone |}.

Definition populated (json : gmap string field) : bool :=
  truthy (dict_get json "firstName" PyNone)
  && truthy (dict_get json "lastName" PyNone)
  && truthy (dict_get json "email" PyNone).

Definition msg_not_found : pyobj := message "User not found".

(** The loaded row after the three assignments of [updata_contact]. *)
Definition assigned (contact : Contact) (data : gmap string field) : Contact :=
  {| id := id contact;
     first_name := dict_get data "firstName" (first_name contact);
     last_name := dict_get data "lastName" (last_name contact);
     email := dict_get data "email" (email contact) |}.

(** What makes the engine refuse the [UPDATE] of the row [c] with the body
    [data]: a [null] for a field that has a value, or an e-mail, other than
    the row's own, that some row carries. *)
Definition update_refused
    (t : gmap Z Contact) (c : Contact) (data : gmap string field) : Prop :=
  data !! "firstName" = Some PyNone ∧ first_name c ≠ PyNone
  ∨ data !! "lastName" = Some PyNone ∧ last_name c ≠ PyNone
  ∨ data !! "email" = Some PyNone ∧ email c ≠ PyNone
  ∨ ∃ e, data !! "email" = Some e ∧ e ≠ email c ∧ ¬ email_free t e.

(** A key of the body that is missing, [null] or the empty string. *)
Definition blank (json : gmap string field) (key : string) : Prop :=
  json !! key = None ∨ json !! key = Some PyNone
  ∨ json !! key = Some (PyStr "").

(** Every row carries its primary key as its [id]. *)
Definition ids_match_keys (t : gmap Z Contact) : Prop :=
  ∀ k c, t !! k = Some c → id c = Some k.

(** No row has [NULL] in a string column. *)
Definition no_nulls (t : gmap Z Contact) : Prop :=
  ∀ k c, t !! k = Some c →
    is_null (first_name c) = false
    ∧ is_null (last_name c) = false
    ∧ is_null (email c) = false.

(** The rows [Contact.query.all()] returns for the table [t]. *)
Definition rows_of (t : gmap Z Contact) : list Contact :=
  (merge_sort key_le (map_to_list t)).*2.

(** ** Sample requests and tables *)

Definition body_A : gmap string field :=
  {[ "firstName" := PyStr "A"; "lastName" := PyStr "B";
     "email" := PyStr "a@b.com" ]}.
Definition body_C : gmap string field :=
  {[ "firstName" := PyStr "C"; "lastName" := PyStr "D";
     "email" := PyStr "c@d.com" ]}.

Definition row_A : Contact :=
  {| id := Some 1; first_name := PyStr "A"; last_name := PyStr "B";
     email := PyStr "a@b.com" |}.
Definition row_C : Contact :=
  {| id := Some 2; first_name := PyStr "C"; last_name := PyStr "D";
     email := PyStr "c@d.com" |}.

(** The table after POST [body_A], and after POST [body_A], POST [body_C]. *)
Definition one_contact : gmap Z Contact :=
  (serve (POST_create_contact body_A) ∅).2.
Definition two_contacts : gmap Z Contact :=
  (serve (POST_create_contact body_C) one_contact).2.

Ltac by_running := vm_compute; first [reflexivity | exact I | done].

(** * Properties *)

(** ** The storage engine *)

Lemma next_id_above (t : gmap Z Contact) k c :
  t !! k = Some c → k < next_id t.
Proof.
  unfold next_id. revert k c.
  apply (map_fold_weak_ind
           (λ b (m : gmap Z Contact), ∀ k c, m !! k = Some c → k < 1 + b)).
  - intros k c Hk. by rewrite lookup_empty in Hk.
  - intros i x m r _ IH k c Hk.
    apply lookup_insert_Some in Hk as [[-> _]|[_ Hk]]; [lia|].
    specialize (IH k c Hk). lia.
Qed.

Lemma next_id_fresh (t : gmap Z Contact) : t !! next_id t = None.
Proof.
  destruct (t !! next_id t) as [c|] eqn:E; [|done].
  apply next_id_above in E. lia.
Qed.

Lemma truthy_not_null v : truthy v = true → is_null v = false.
Proof. by destruct v. Qed.

Lemma serializable_to_json c : serializable (to_json c) = true.
Proof. by destruct c as [[?|] [|?] [|?] [|?]]. Qed.

Lemma serializable_contacts (l : list Contact) :
  forallb serializable (map to_json l) = true.
Proof.
  induction l as [|c l IH]; [done|].
  cbn [map forallb]. by rewrite serializable_to_json, IH.
Qed.

(** ** What each view computes *)

Lemma get_contacts_run w :
  get_contacts w =
  (Ok (ODict [("contacts", OList (map to_json (rows_of (table w))))],
       200), w).
Proof.
  unfold get_contacts, jsonify, query.all, mbind, M_bind, mret, M_ret.
  fold (rows_of (table w)).
  cbn [serializable forallb]. by rewrite serializable_contacts.
Qed.

Lemma elem_of_rows_of (t : gmap Z Contact) c :
  c ∈ rows_of t ↔ ∃ k, t !! k = Some c.
Proof.
  unfold rows_of. rewrite list_elem_of_fmap. split.
  - intros ([k c'] & -> & H). rewrite merge_sort_Permutation in H.
    exists k. by apply elem_of_map_to_list.
  - intros [k H]. exists (k, c). split; [done|].
    rewrite merge_sort_Permutation. by apply elem_of_map_to_list.
Qed.

Lemma create_contact_rejects json w :
  populated json = false →
  create_contact json w = (Ok (msg_missing, 400), w).
Proof.
  unfold populated, create_contact. intros H.
  destruct (truthy (dict_get json "firstName" PyNone)),
    (truthy (dict_get json "lastName" PyNone)),
    (truthy (dict_get json "email" PyNone)); done.
Qed.

Lemma create_contact_run json t :
  populated json = true →
  create_contact json (fresh t) =
  if bool_decide (email_free t (dict_get json "email" PyNone))
  then (Ok (message "User Created", 201),
        fresh (<[next_id t := with_id (next_id t) (new_contact_of json)]> t))
  else (Ok (msg_integrity, 400), fresh t).
Proof.
  unfold populated, create_contact. intros H.
  apply andb_true_iff in H as [H He]. apply andb_true_iff in H as [Hf Hl].
  rewrite Hf, Hl, He. cbn [negb orb].
  unfold try, session_.add, session_.commit, mbind, M_bind, fresh.
  cbn [table session app flush flush1 first_name last_name email].
  rewrite (truthy_not_null _ Hf), (truthy_not_null _ Hl),
    (truthy_not_null _ He). cbn [orb].
  case_bool_decide; done.
Qed.

Lemma updata_contact_unknown user_id data w :
  table w !! user_id = None →
  updata_contact user_id data w = (Ok (msg_not_found, 400), w).
Proof.
  intros H. unfold updata_contact, query.get, mbind, M_bind. by rewrite H.
Qed.

Lemma updata_contact_run user_id data t c :
  t !! user_id = Some c →
  updata_contact user_id data (fresh t) =
  match flush1 t (Update user_id (assigned c data)) with
  | Ok t' => (Raise TypeError, fresh t')
  | Raise e => (Raise e, fresh t)
  end.
Proof.
  intros H.
  unfold updata_contact, query.get, session_.dirty, session_.commit,
    mbind, M_bind, fresh.
  cbn [table session app flush]. rewrite H. cbn [table session app flush].
  cbn [id first_name last_name email]. fold (assigned c data).
  by destruct (flush1 t (Update user_id (assigned c data))).
Qed.

Lemma delete_contact_unknown user_id w :
  table w !! user_id = None →
  delete_contact user_id w = (Ok (msg_not_found, 400), w).
Proof.
  intros H. unfold delete_contact, query.get, mbind, M_bind. by rewrite H.
Qed.

Lemma delete_contact_run user_id t c :
  t !! user_id = Some c →
  delete_contact user_id (fresh t) =
  (Raise TypeError, fresh (delete user_id t)).
Proof.
  intros H.
  unfold delete_contact, query.get, session_.delete, session_.commit,
    mbind, M_bind, fresh.
  cbn [table session app flush flush1]. rewrite H.
  by cbn [table session app flush flush1].
Qed.

(** An [UPDATE] of an existing row either replaces it or is refused. *)
Lemma flush1_update t k old c :
  t !! k = Some old →
  (flush1 t (Update k c) = Ok (<[k := c]> t)
   ∧ (email old = email c ∨ email_free t (email c))
   ∧ sets_null (first_name old) (first_name c) = false
   ∧ sets_null (last_name old) (last_name c) = false
   ∧ sets_null (email old) (email c) = false)
  ∨ flush1 t (Update k c) = Raise IntegrityError.
Proof.
  intros H. cbn [flush1]. rewrite H.
  destruct (sets_null (first_name old) (first_name c)); [by right|].
  destruct (sets_null (last_name old) (last_name c)); [by right|].
  destruct (sets_null (email old) (email c)); [by right|].
  cbn [orb].
  destruct (bool_decide (email old = email c)) eqn:E1.
  { apply bool_decide_eq_true in E1. left. eauto 10. }
  destruct (bool_decide (email_free t (email c))) eqn:E2.
  { apply bool_decide_eq_true in E2. left. eauto 10. }
  by right.
Qed.

Lemma sets_null_dict_get (data : gmap string field) key old :
  sets_null old (dict_get data key old) = true ↔
  data !! key = Some PyNone ∧ old ≠ PyNone.
Proof.
  unfold sets_null, dict_get. destruct (data !! key) as [[|s]|]; cbn.
  - rewrite negb_true_iff, bool_decide_eq_false. naive_solver.
  - naive_solver.
  - rewrite bool_decide_eq_true_2 by done. rewrite andb_false_r.
    naive_solver.
Qed.

Lemma flush1_update_refused_iff t k c data :
  t !! k = Some c →
  flush1 t (Update k (assigned c data)) = Raise IntegrityError
  ↔ update_refused t c data.
Proof.
  intros Hk. cbn [flush1]. rewrite Hk. unfold assigned, update_refused.
  cbn [first_name last_name email].
  rewrite <- !sets_null_dict_get.
  destruct (sets_null (first_name c) _); [naive_solver|].
  destruct (sets_null (last_name c) _); [naive_solver|].
  destruct (sets_null (email c) _); [naive_solver|].
  cbn [orb]. unfold dict_get.
  destruct (data !! "email") as [e|] eqn:He.
  - destruct (decide (email c = e)) as [->|Hne].
    + rewrite bool_decide_eq_true_2 by done. cbn [orb]. naive_solver.
    + rewrite (bool_decide_eq_false_2 (email c = e)) by done. cbn [orb].
      case_bool_decide; [naive_solver|].
      split; [|done]. intros _. do 3 right. exists e. naive_solver.
  - rewrite bool_decide_eq_true_2 by done. cbn [orb]. naive_solver.
Qed.

(** [create_contact] always returns a response, with the session emptied:
    by the commit, by a rollback, or because it was never used. *)
Lemma create_contact_always_answers json t :
  ∃ body status t',
    create_contact json (fresh t) = (Ok (body, status), fresh t')
    ∧ (status = 201 ∨ status = 400 ∧ t' = t).
Proof.
  destruct (populated json) eqn:Hp.
  - rewrite create_contact_run by done. case_bool_decide; eauto 10.
  - rewrite create_contact_rejects by done. eauto 10.
Qed.

(** ** The table after one request *)

Lemma serve_get t : serve GET_contacts t = ((get_contacts (fresh t)).1, t).
Proof. unfold serve, route. by rewrite get_contacts_run. Qed.

Lemma serve_create json t :
  (serve (POST_create_contact json) t).2 = t
  ∨ (populated json = true
     ∧ email_free t (email (new_contact_of json))
     ∧ (serve (POST_create_contact json) t).2
       = <[next_id t := with_id (next_id t) (new_contact_of json)]> t).
Proof.
  unfold serve, route. destruct (populated json) eqn:Hp.
  - rewrite create_contact_run by done. case_bool_decide; [|by left].
    right. done.
  - left. by rewrite create_contact_rejects.
Qed.

Lemma serve_update user_id data t :
  (serve (PATCH_update_contact user_id data) t).2 = t
  ∨ ∃ old,
      t !! user_id = Some old
      ∧ (email old = email (assigned old data)
         ∨ email_free t (email (assigned old data)))
      ∧ sets_null (first_name old) (first_name (assigned old data)) = false
      ∧ sets_null (last_name old) (last_name (assigned old data)) = false
      ∧ sets_null (email old) (email (assigned old data)) = false
      ∧ (serve (PATCH_update_contact user_id data) t).2
        = <[user_id := assigned old data]> t.
Proof.
  unfold serve, route. destruct (t !! user_id) as [old|] eqn:Hk.
  - rewrite (updata_contact_run _ _ _ _ Hk).
    destruct (flush1_update t user_id old (assigned old data) Hk)
      as [(-> & He & H1 & H2 & H3) | ->]; [|by left].
    right. exists old. done.
  - left. by rewrite updata_contact_unknown.
Qed.

Lemma serve_delete user_id t :
  (serve (DELETE_delete_contact user_id) t).2 = delete user_id t.
Proof.
  unfold serve, route. destruct (t !! user_id) as [c|] eqn:Hk.
  - by rewrite (delete_contact_run _ _ _ Hk).
  - rewrite delete_contact_unknown by done. cbn. by rewrite delete_id.
Qed.

(** ** Uniqueness of e-mails is preserved by every statement *)

Lemma unique_emails_empty : unique_emails ∅.
Proof. intros i j c d Hi. by rewrite lookup_empty in Hi. Qed.

Lemma unique_emails_insert_new t k c :
  unique_emails t → t !! k = None → email_free t (email c) →
  unique_emails (<[k := c]> t).
Proof.
  intros Hu Hk Hfree i j a b Hi Hj Hab.
  apply lookup_insert_Some in Hi as [[<- <-]|[Hik Hi]];
    apply lookup_insert_Some in Hj as [[<- <-]|[Hjk Hj]]; try done.
  - by destruct (Hfree j b Hj).
  - by destruct (Hfree i a Hi).
  - by apply (Hu i j a b).
Qed.

Lemma unique_emails_replace t k old c :
  unique_emails t → t !! k = Some old →
  email old = email c ∨ email_free t (email c) →
  unique_emails (<[k := c]> t).
Proof.
  intros Hu Hk Hfree i j a b Hi Hj Hab.
  apply lookup_insert_Some in Hi as [[<- <-]|[Hik Hi]];
    apply lookup_insert_Some in Hj as [[<- <-]|[Hjk Hj]]; try done.
  - destruct Hfree as [He|Hfree].
    + apply (Hu k j old b Hk Hj). congruence.
    + by destruct (Hfree j b Hj).
  - destruct Hfree as [He|Hfree].
    + apply (Hu i k a old Hi Hk). congruence.
    + by destruct (Hfree i a Hi).
  - by apply (Hu i j a b).
Qed.

Lemma unique_emails_delete t k :
  unique_emails t → unique_emails (delete k t).
Proof.
  intros Hu i j a b Hi Hj.
  apply lookup_delete_Some in Hi as [_ Hi].
  apply lookup_delete_Some in Hj as [_ Hj]. by apply (Hu i j a b).
Qed.

Lemma unique_emails_serve r t :
  unique_emails t → unique_emails (serve r t).2.
Proof.
  intros Hu. destruct r as [|json|user_id data|user_id].
  - by rewrite serve_get.
  - destruct (serve_create json t) as [-> | (_ & Hfree & ->)]; [done|].
    apply unique_emails_insert_new; [done|apply next_id_fresh|done].
  - destruct (serve_update user_id data t)
      as [-> | (old & Hk & Hfree & _ & _ & _ & ->)]; [done|].
    by apply (unique_emails_replace t user_id old).
  - rewrite serve_delete. by apply unique_emails_delete.
Qed.

(** C1. In every table reachable from the empty one through create,
    update and delete requests, no two contacts share an e-mail. *)
Theorem email_unique_in_reachable_tables t :
  reachable t → unique_emails t.
Proof.
  induction 1 as [|r t _ IH].
  - apply unique_emails_empty.
  - by apply unique_emails_serve.
Qed.

(** C2. Updating an existing contact leaves every field that is absent
    from the body at its prior value, keeps the contact's id and keeps
    every other contact.  Unless the engine refuses the statement, each
    field the body has takes the supplied value; it refuses it exactly
    when the body carries [null] for a field that has a value or an
    e-mail that another contact has, and then the table is the one before
    the request. *)
Theorem update_changes_only_supplied_fields
    (t : gmap Z Contact) (user_id : Z) (data : gmap string field) c :
  t !! user_id = Some c →
  ∃ c',
    (serve (PATCH_update_contact user_id data) t).2 !! user_id = Some c'
    ∧ id c' = id c
    ∧ (data !! "firstName" = None → first_name c' = first_name c)
    ∧ (data !! "lastName" = None → last_name c' = last_name c)
    ∧ (data !! "email" = None → email c' = email c)
    ∧ (∀ j, j ≠ user_id →
         (serve (PATCH_update_contact user_id data) t).2 !! j = t !! j)
    ∧ (¬ update_refused t c data →
         (∀ v, data !! "firstName" = Some v → first_name c' = v)
         ∧ (∀ v, data !! "lastName" = Some v → last_name c' = v)
         ∧ (∀ v, data !! "email" = Some v → email c' = v))
    ∧ (update_refused t c data →
         (serve (PATCH_update_contact user_id data) t).2 = t).
Proof.
  intros Hk. unfold serve, route. rewrite (updata_contact_run _ _ _ _ Hk).
  destruct (flush1 t (Update user_id (assigned c data))) as [t'|e] eqn:E.
  - destruct (flush1_update t user_id c (assigned c data) Hk)
      as [(E' & _) | E']; [|congruence].
    assert (t' = <[user_id := assigned c data]> t) as -> by congruence.
    exists (assigned c data). cbn [fst snd table fresh].
    rewrite lookup_insert_eq. unfold assigned, dict_get.
    cbn [id first_name last_name email].
    repeat split; try (by intros ->); try (by intros v ->).
    + intros j Hj. by rewrite lookup_insert_ne.
    + intros Hr. apply (flush1_update_refused_iff t user_id c data Hk) in Hr.
      congruence.
  - destruct (flush1_update t user_id c (assigned c data) Hk)
      as [(E' & _) | E']; [congruence|].
    assert (e = IntegrityError) as -> by congruence.
    assert (Hr : update_refused t c data)
      by by apply (flush1_update_refused_iff t user_id c data Hk).
    exists c. cbn [fst snd table fresh]. repeat split; done.
Qed.

Lemma blank_not_truthy json key :
  blank json key → truthy (dict_get json key PyNone) = false.
Proof. unfold dict_get. by intros [-> | [-> | ->]]. Qed.

(** C4. When the table holds a contact with e-mail [e], a create request
    with e-mail [e] is answered 400 and the table is left as it was. *)
Theorem create_duplicate_email_rejected
    (t : gmap Z Contact) (json : gmap string field) k c e :
  t !! k = Some c →
  email c = PyStr e →
  json !! "email" = Some (PyStr e) →
  ∃ body, serve (POST_create_contact json) t = (Ok (body, 400), t).
Proof.
  intros Hk Hc He. unfold serve, route. destruct (populated json) eqn:Hp.
  - rewrite create_contact_run by done.
    rewrite bool_decide_eq_false_2; [by eexists|].
    intros Hfree. apply (Hfree k c Hk).
    unfold dict_get. by rewrite He.
  - rewrite create_contact_rejects by done. by eexists.
Qed.

(** C5. A create request in which firstName, lastName or email is missing
    or empty is answered 400 and persists nothing. *)
Theorem create_blank_field_rejected
    (t : gmap Z Contact) (json : gmap string field) :
  blank json "firstName" ∨ blank json "lastName" ∨ blank json "email" →
  serve (POST_create_contact json) t = (Ok (msg_missing, 400), t).
Proof.
  intros H. unfold serve, route. rewrite create_contact_rejects; [done|].
  unfold populated.
  destruct H as [H | [H | H]]; apply blank_not_truthy in H; rewrite H;
    by rewrite ?andb_false_r.
Qed.

(** C7. For an id that the route accepts (a segment of decimal digits)
    and the key can hold (below 2^63), and that is not in the table, update
    and delete both answer 400 with [{message: "User not found"}] and leave
    the table as it was. *)
Theorem unknown_id_is_a_400
    (t : gmap Z Contact) (seg : string) (user_id : Z)
    (data : gmap string field) :
  int_converter seg = Some user_id →
  user_id < 2 ^ 63 →
  t !! user_id = None →
  http_PATCH_update_contact seg data t = (400, t)
  ∧ http_DELETE_delete_contact seg t = (400, t)
  ∧ serve (PATCH_update_contact user_id data) t = (Ok (msg_not_found, 400), t)
  ∧ serve (DELETE_delete_contact user_id) t = (Ok (msg_not_found, 400), t).
Proof.
  intros Hseg Hlt H.
  assert (Hb : bindable user_id = true) by by apply Z.ltb_lt.
  unfold http_PATCH_update_contact, http_DELETE_delete_contact.
  rewrite Hseg, Hb. unfold serve, route.
  by rewrite updata_contact_unknown, delete_contact_unknown.
Qed.

(** C9. A create request whose three fields are non-empty strings, with an
    e-mail no contact has, is answered 201 with [{message: "User Created"}]
    and stores the contact under a key [k] no row had; the following
    GET /contacts is answered 200 with a list that holds that contact as
    [{id: k, firstName, lastName, email}]. *)
Theorem create_then_list
    (t : gmap Z Contact) (json : gmap string field) f l e :
  json !! "firstName" = Some (PyStr f) → f ≠ "" →
  json !! "lastName" = Some (PyStr l) → l ≠ "" →
  json !! "email" = Some (PyStr e) → e ≠ "" →
  email_free t (PyStr e) →
  ∃ t' k items,
    serve (POST_create_contact json) t
      = (Ok (ODict [("message", OStr "User Created")], 201), t')
    ∧ t !! k = None
    ∧ t' = <[k := {| id := Some k; first_name := PyStr f;
                     last_name := PyStr l; email := PyStr e |}]> t
    ∧ serve GET_contacts t'
      = (Ok (ODict [("contacts", OList items)], 200), t')
    ∧ ODict [("id", OInt k); ("firstName", OStr f);
             ("lastName", OStr l); ("email", OStr e)] ∈ items.
Proof.
  intros Hf Hf' Hl Hl' He He' Hfree.
  assert (Hnz : ∀ s, s ≠ "" → negb (String.eqb s "") = true).
  { intros s Hs. apply negb_true_iff, String.eqb_neq, Hs. }
  assert (Hp : populated json = true).
  { unfold populated, dict_get. rewrite Hf, Hl, He. cbn [truthy].
    by rewrite !Hnz. }
  set (k := next_id t).
  set (row := {| id := Some k; first_name := PyStr f;
                 last_name := PyStr l; email := PyStr e |}).
  assert (Hrow : with_id k (new_contact_of json) = row).
  { unfold row, with_id, new_contact_of, dict_get.
    cbn [first_name last_name email]. by rewrite Hf, Hl, He. }
  exists (<[k := row]> t), k, (map to_json (rows_of (<[k := row]> t))).
  split; [|split; [|split; [|split]]].
  - unfold serve, route. rewrite create_contact_run by done.
    rewrite bool_decide_eq_true_2.
    + fold k. by rewrite Hrow.
    + unfold dict_get. by rewrite He.
  - apply next_id_fresh.
  - done.
  - by rewrite serve_get, get_contacts_run.
  - apply list_elem_of_In, in_map_iff. exists row. split; [done|].
    apply list_elem_of_In, elem_of_rows_of. exists k.
    apply lookup_insert_eq.
Qed.

(** C10. A PATCH with the empty object on an existing id commits without
    a storage error and leaves the table as it was: the contact keeps its
    three fields and every other contact is unchanged. *)
Theorem update_with_empty_body
    (t : gmap Z Contact) (user_id : Z) c :
  t !! user_id = Some c →
  flush t [Update user_id (assigned c ∅)] = Ok t
  ∧ updata_contact user_id ∅ (fresh t) = (Raise TypeError, fresh t)
  ∧ is_SQLAlchemyError TypeError = false
  ∧ (serve (PATCH_update_contact user_id ∅) t).2 !! user_id = Some c
  ∧ ∀ j, (serve (PATCH_update_contact user_id ∅) t).2 !! j = t !! j.
Proof.
  intros Hk.
  assert (Ha : assigned c ∅ = c).
  { destruct c. unfold assigned, dict_get. by rewrite !lookup_empty. }
  assert (Hflush : flush1 t (Update user_id c) = Ok t).
  { cbn [flush1]. rewrite Hk. unfold sets_null.
    rewrite !bool_decide_eq_true_2 by done. rewrite !andb_false_r.
    cbn [orb]. by rewrite insert_id. }
  assert (Hrun : updata_contact user_id ∅ (fresh t)
                 = (Raise TypeError, fresh t)).
  { rewrite (updata_contact_run _ _ _ _ Hk), Ha. by rewrite Hflush. }
  rewrite Ha. cbn [flush]. rewrite Hflush. unfold serve, route.
  rewrite Hrun. done.
Qed.

(** ** Concrete runs *)

Example one_contact_rows : one_contact = {[ 1 := row_A ]}.
Proof. vm_compute. reflexivity. Qed.

Example two_contacts_rows : two_contacts = {[ 1 := row_A; 2 := row_C ]}.
Proof. vm_compute. reflexivity. Qed.

Example spec_example :
  serve (POST_create_contact body_A) ∅
    = (Ok (ODict [("message", OStr "User Created")], 201), {[ 1 := row_A ]})
  ∧ (serve GET_contacts {[ 1 := row_A ]}).1
    = Ok (ODict [("contacts",
                  OList [ODict [("id", OInt 1); ("firstName", OStr "A");
                                ("lastName", OStr "B");
                                ("email", OStr "a@b.com")]])], 200).
Proof. split; vm_compute; reflexivity. Qed.

(** C3. The commit of [updata_contact] is not guarded: renaming contact 2
    to the e-mail of contact 1 makes the engine raise [IntegrityError],
    which leaves the view as an exception: no response is built and the
    view calls no rollback.  [create_contact] answers the same violation
    with a 400 after its rollback. *)
Theorem update_lets_integrity_error_escape :
  updata_contact 2 {[ "email" := PyStr "a@b.com" ]} (fresh two_contacts)
  = (Raise IntegrityError, fresh two_contacts)
  ∧ is_SQLAlchemyError IntegrityError = true
  ∧ create_contact body_A (fresh two_contacts)
    = (Ok (msg_integrity, 400), fresh two_contacts).
Proof. repeat split; vm_compute; reflexivity. Qed.

(** C6. On an id that is in the table, neither view returns its 200:
    the statement is committed and then [jsonify] is handed a set, so the
    view raises [TypeError] and the client is answered 500. *)
Theorem update_and_delete_answer_500
    (t : gmap Z Contact) (user_id : Z) (data : gmap string field) :
  is_Some (t !! user_id) →
  (∃ e, (serve (PATCH_update_contact user_id data) t).1 = Raise e)
  ∧ http_status (serve (PATCH_update_contact user_id data) t).1 = 500
  ∧ serve (DELETE_delete_contact user_id) t
    = (Raise TypeError, delete user_id t)
  ∧ http_status (serve (DELETE_delete_contact user_id) t).1 = 500.
Proof.
  intros [c Hk]. unfold serve, route.
  rewrite (updata_contact_run _ _ _ _ Hk), (delete_contact_run _ _ _ Hk).
  destruct (flush1 t (Update user_id (assigned c data))); cbn; eauto.
Qed.

(** C8. After POST [body_A], a PATCH of contact 1 with
    [{"firstName": ""}] is committed: the reachable table holds a contact
    whose first name is the empty string. *)
Theorem update_stores_empty_first_name :
  reachable
    (serve (PATCH_update_contact 1 {[ "firstName" := PyStr "" ]})
       one_contact).2
  ∧ (serve (PATCH_update_contact 1 {[ "firstName" := PyStr "" ]})
       one_contact).2 !! 1
    = Some {| id := Some 1; first_name := PyStr ""; last_name := PyStr "B";
              email := PyStr "a@b.com" |}
  ∧ serve (POST_create_contact {[ "firstName" := PyStr "";
                                  "lastName" := PyStr "B";
                                  "email" := PyStr "x@y.com" ]}) one_contact
    = (Ok (msg_missing, 400), one_contact).
Proof.
  split; [|split].
  - apply reachable_serve, reachable_serve, reachable_empty.
  - vm_compute. reflexivity.
  - vm_compute. reflexivity.
Qed.

(** ** The theorems at concrete requests *)

Lemma email_unique_in_reachable_tables_witness :
  reachable two_contacts ∧ unique_emails two_contacts.
Proof.
  assert (H : reachable two_contacts).
  { apply reachable_serve, reachable_serve, reachable_empty. }
  exact (conj H (email_unique_in_reachable_tables two_contacts H)).
Defined.

Lemma update_changes_only_supplied_fields_witness :
  one_contact !! 1 = Some row_A
  ∧ ¬ update_refused one_contact row_A {[ "email" := PyStr "new@x.com" ]}
  ∧ ∃ c',
      (serve (PATCH_update_contact 1 {[ "email" := PyStr "new@x.com" ]})
         one_contact).2 !! 1 = Some c'
      ∧ id c' = Some 1
      ∧ first_name c' = PyStr "A"
      ∧ last_name c' = PyStr "B"
      ∧ email c' = PyStr "new@x.com".
Proof.
  assert (H : one_contact !! 1 = Some row_A) by by_running.
  assert (Hfree : email_free one_contact (PyStr "new@x.com")).
  { refine (bool_decide_unpack
              (email_free one_contact (PyStr "new@x.com")) _).
    by_running. }
  assert (Hn : ¬ update_refused one_contact row_A
                 {[ "email" := PyStr "new@x.com" ]}).
  { intros [[E _] | [[E _] | [[E _] | (e & E & _ & Hne)]]];
      vm_compute in E; try discriminate E.
    injection E as <-. exact (Hne Hfree). }
  split; [exact H|]. split; [exact Hn|].
  destruct (update_changes_only_supplied_fields one_contact 1
              {[ "email" := PyStr "new@x.com" ]} row_A H)
    as (c' & Hc' & Hid & Hf & Hl & _ & _ & Hset & _).
  exists c'. split; [exact Hc'|]. split; [exact Hid|].
  split; [apply Hf; by_running|]. split; [apply Hl; by_running|].
  destruct (Hset Hn) as (_ & _ & He). apply He. by_running.
Defined.

Lemma update_refused_leaves_supplied_field :
  two_contacts !! 2 = Some row_C
  ∧ ({[ "email" := PyStr "a@b.com" ]} : gmap string field) !! "email"
    = Some (PyStr "a@b.com")
  ∧ ¬ ∃ c',
        (serve (PATCH_update_contact 2 {[ "email" := PyStr "a@b.com" ]})
           two_contacts).2 !! 2 = Some c'
        ∧ email c' = PyStr "a@b.com".
Proof.
  split; [by_running|]. split; [by_running|].
  intros (c' & Hc' & He). vm_compute in Hc'.
  injection Hc' as <-. discriminate He.
Qed.

Lemma create_duplicate_email_rejected_witness :
  two_contacts !! 1 = Some row_A
  ∧ email row_A = PyStr "a@b.com"
  ∧ body_A !! "email" = Some (PyStr "a@b.com")
  ∧ ∃ body,
      serve (POST_create_contact body_A) two_contacts
      = (Ok (body, 400), two_contacts).
Proof.
  assert (H1 : two_contacts !! 1 = Some row_A) by by_running.
  assert (H2 : email row_A = PyStr "a@b.com") by reflexivity.
  assert (H3 : body_A !! "email" = Some (PyStr "a@b.com")) by by_running.
  exact (conj H1 (conj H2 (conj H3
    (create_duplicate_email_rejected two_contacts body_A 1 row_A "a@b.com"
       H1 H2 H3)))).
Defined.

Lemma create_blank_field_rejected_witness :
  blank {[ "firstName" := PyStr "A"; "email" := PyStr "x@y.com" ]} "lastName"
  ∧ serve (POST_create_contact
             {[ "firstName" := PyStr "A"; "email" := PyStr "x@y.com" ]})
      one_contact
    = (Ok (msg_missing, 400), one_contact).
Proof.
  assert (H : blank {[ "firstName" := PyStr "A"; "email" := PyStr "x@y.com" ]}
                "lastName").
  { left. by_running. }
  exact (conj H (create_blank_field_rejected one_contact _
                   (or_intror (or_introl H)))).
Defined.

Lemma update_and_delete_answer_500_witness :
  is_Some (one_contact !! 1)
  ∧ http_status (serve (PATCH_update_contact 1 ∅) one_contact).1 = 500
  ∧ serve (DELETE_delete_contact 1) one_contact
    = (Raise TypeError, delete 1 one_contact).
Proof.
  assert (H : is_Some (one_contact !! 1)).
  { exists row_A. by_running. }
  destruct (update_and_delete_answer_500 one_contact 1 ∅ H)
    as (_ & Hu & Hd & _).
  exact (conj H (conj Hu Hd)).
Defined.

Lemma unknown_id_is_a_400_witness :
  int_converter "7" = Some 7
  ∧ 7 < 2 ^ 63
  ∧ one_contact !! 7 = None
  ∧ http_PATCH_update_contact "7" body_C one_contact = (400, one_contact)
  ∧ http_DELETE_delete_contact "7" one_contact = (400, one_contact)
  ∧ serve (PATCH_update_contact 7 body_C) one_contact
    = (Ok (msg_not_found, 400), one_contact)
  ∧ serve (DELETE_delete_contact 7) one_contact
    = (Ok (msg_not_found, 400), one_contact).
Proof.
  assert (H1 : int_converter "7" = Some 7) by reflexivity.
  assert (H2 : 7 < 2 ^ 63) by reflexivity.
  assert (H3 : one_contact !! 7 = None) by by_running.
  exact (conj H1 (conj H2 (conj H3
    (unknown_id_is_a_400 one_contact "7" 7 body_C H1 H2 H3)))).
Defined.

Lemma unroutable_or_unbindable_id_is_not_a_400 :
  one_contact !! (-1) = None
  ∧ http_PATCH_update_contact "-1" body_C one_contact = (404, one_contact)
  ∧ http_DELETE_delete_contact "-1" one_contact = (404, one_contact)
  ∧ one_contact !! (2 ^ 63) = None
  ∧ http_PATCH_update_contact "9223372036854775808" body_C one_contact
    = (500, one_contact)
  ∧ http_DELETE_delete_contact "9223372036854775808" one_contact
    = (500, one_contact).
Proof. repeat split; by_running. Qed.

Lemma create_then_list_witness :
  email_free one_contact (PyStr "c@d.com")
  ∧ ∃ t' k items,
      serve (POST_create_contact body_C) one_contact
        = (Ok (ODict [("message", OStr "User Created")], 201), t')
      ∧ one_contact !! k = None
      ∧ t' = <[k := {| id := Some k; first_name := PyStr "C";
                       last_name := PyStr "D"; email := PyStr "c@d.com" |}]>
               one_contact
      ∧ serve GET_contacts t'
        = (Ok (ODict [("contacts", OList items)], 200), t')
      ∧ ODict [("id", OInt k); ("firstName", OStr "C");
               ("lastName", OStr "D"); ("email", OStr "c@d.com")] ∈ items.
Proof.
  assert (H : email_free one_contact (PyStr "c@d.com")).
  { refine (bool_decide_unpack (email_free one_contact (PyStr "c@d.com")) _).
    by_running. }
  split; [exact H|].
  apply (create_then_list one_contact body_C "C" "D" "c@d.com");
    first [exact H | by_running | discriminate].
Defined.

Lemma update_with_empty_body_witness :
  one_contact !! 1 = Some row_A
  ∧ updata_contact 1 ∅ (fresh one_contact)
    = (Raise TypeError, fresh one_contact)
  ∧ (serve (PATCH_update_contact 1 ∅) one_contact).2 !! 1 = Some row_A.
Proof.
  assert (H : one_contact !! 1 = Some row_A) by by_running.
  destruct (update_with_empty_body one_contact 1 row_A H)
    as (_ & Hrun & _ & Hrow & _).
  exact (conj H (conj Hrun Hrow)).
Defined.

(** * Further properties of the views *)

(** ** [get_contacts] and [to_json] *)

(** X1. GET /contacts never raises and never writes: it answers 200 with
    one entry per row of the table, and an object is in the list exactly
    when it is the [to_json] of a stored contact. *)
Theorem get_contacts_lists_every_row (t : gmap Z Contact) :
  ∃ items,
    serve GET_contacts t = (Ok (ODict [("contacts", OList items)], 200), t)
    ∧ length items = size t
    ∧ ∀ o, o ∈ items ↔ ∃ k c, t !! k = Some c ∧ o = to_json c.
Proof.
  exists (map to_json (rows_of t)). split; [|split].
  - by rewrite serve_get, get_contacts_run.
  - unfold rows_of.
    by rewrite length_map, length_fmap, merge_sort_Permutation,
      length_map_to_list.
  - intros o. rewrite list_elem_of_In, in_map_iff. split.
    + intros (c & <- & Hc%list_elem_of_In%elem_of_rows_of).
      destruct Hc as [k Hk]. eauto.
    + intros (k & c & Hk & ->). exists c. split; [done|].
      apply list_elem_of_In, elem_of_rows_of. eauto.
Qed.

(** X2. [to_json] loses nothing: two contacts with the same dictionary are
    the same contact. *)
Theorem to_json_injective (c d : Contact) :
  to_json c = to_json d → c = d.
Proof.
  destruct c as [[?|] [|?] [|?] [|?]], d as [[?|] [|?] [|?] [|?]];
    cbn; intros H; by simplify_eq.
Qed.

(** ** Invariants of the reachable tables *)

Lemma ids_match_keys_serve r t :
  ids_match_keys t → ids_match_keys (serve r t).2.
Proof.
  intros Hi. destruct r as [|json|user_id data|user_id].
  - by rewrite serve_get.
  - destruct (serve_create json t) as [-> | (_ & _ & ->)]; [done|].
    intros k c [[<- <-]|[_ Hk]]%lookup_insert_Some; [done|by apply Hi].
  - destruct (serve_update user_id data t)
      as [-> | (old & Hk & _ & _ & _ & _ & ->)]; [done|].
    intros k c [[<- <-]|[_ Hc]]%lookup_insert_Some; [|by apply Hi].
    cbn. by apply Hi.
  - rewrite serve_delete. intros k c [_ Hk]%lookup_delete_Some. by apply Hi.
Qed.

(** X3. In every reachable table the [id] of a row is the key it is stored
    under: no view ever assigns [id], and an insert sets it to the new key. *)
Theorem id_is_primary_key_in_reachable_tables t :
  reachable t → ids_match_keys t.
Proof.
  induction 1 as [|r t _ IH].
  - intros k c Hk. by rewrite lookup_empty in Hk.
  - by apply ids_match_keys_serve.
Qed.

Lemma sets_null_false old new :
  is_null old = false → sets_null old new = false → is_null new = false.
Proof.
  unfold sets_null. intros Ho H. destruct (is_null new) eqn:E; [|done].
  cbn in H. apply negb_false_iff, bool_decide_eq_true in H. congruence.
Qed.

Lemma no_nulls_serve r t : no_nulls t → no_nulls (serve r t).2.
Proof.
  intros Hn. destruct r as [|json|user_id data|user_id].
  - by rewrite serve_get.
  - destruct (serve_create json t) as [-> | (Hp & _ & ->)]; [done|].
    intros k c [[<- <-]|[_ Hk]]%lookup_insert_Some; [|by apply (Hn k)].
    unfold populated in Hp.
    apply andb_true_iff in Hp as [Hp He].
    apply andb_true_iff in Hp as [Hf Hl].
    repeat split; by apply truthy_not_null.
  - destruct (serve_update user_id data t)
      as [-> | (old & Hk & _ & H1 & H2 & H3 & ->)]; [done|].
    intros k c [[<- <-]|[_ Hc]]%lookup_insert_Some; [|by apply (Hn k)].
    destruct (Hn _ _ Hk) as (N1 & N2 & N3).
    split; [exact (sets_null_false _ _ N1 H1)|].
    split; [exact (sets_null_false _ _ N2 H2)|].
    exact (sets_null_false _ _ N3 H3).
  - rewrite serve_delete. intros k c [_ Hk]%lookup_delete_Some.
    by apply (Hn k).
Qed.

(** X4. In every reachable table the first name, last name and e-mail of
    every row are strings, never [None]: the create guard rejects a missing
    field and the [nullable=False] columns refuse an update to [None]. *)
Theorem no_null_field_in_reachable_tables t :
  reachable t → no_nulls t.
Proof.
  induction 1 as [|r t _ IH].
  - intros k c Hk. by rewrite lookup_empty in Hk.
  - by apply no_nulls_serve.
Qed.

(** ** How the views compose *)

(** X5. A create request never alters or removes a stored contact.  It
    either answers 201 and adds exactly one row, under a key no row had and
    with that key as its [id], or answers 400 and leaves the table as it
    was. *)
Theorem create_adds_one_row_or_nothing
    (t : gmap Z Contact) (json : gmap string field) :
  (∀ j c, t !! j = Some c →
     (serve (POST_create_contact json) t).2 !! j = Some c)
  ∧ ((serve (POST_create_contact json) t).1
       = Ok (ODict [("message", OStr "User Created")], 201)
     ∧ size (serve (POST_create_contact json) t).2 = S (size t)
     ∧ (∃ k row, t !! k = None ∧ id row = Some k
          ∧ (serve (POST_create_contact json) t).2 = <[k := row]> t)
     ∨ (∃ body, (serve (POST_create_contact json) t).1 = Ok (body, 400))
       ∧ (serve (POST_create_contact json) t).2 = t).
Proof.
  unfold serve, route. destruct (populated json) eqn:Hp.
  - rewrite create_contact_run by done. case_bool_decide.
    + cbn [fst snd table fresh]. split.
      * intros j c Hj. rewrite lookup_insert_ne; [done|].
        intros <-. by rewrite next_id_fresh in Hj.
      * left. split; [done|]. split.
        { apply map_size_insert_None, next_id_fresh. }
        exists (next_id t), (with_id (next_id t) (new_contact_of json)).
        split; [apply next_id_fresh|]. by split.
    + split; [done|]. right. split; [by eexists|done].
  - rewrite create_contact_rejects by done.
    split; [done|]. right. split; [by eexists|done].
Qed.

(** X6. DELETE of an id that has a row removes that row and no other; a
    second DELETE of the same id is answered 400 and changes nothing. *)
Theorem delete_removes_one_row_then_400 (t : gmap Z Contact) (user_id : Z) :
  is_Some (t !! user_id) →
  (serve (DELETE_delete_contact user_id) t).2 !! user_id = None
  ∧ (∀ j, j ≠ user_id →
       (serve (DELETE_delete_contact user_id) t).2 !! j = t !! j)
  ∧ serve (DELETE_delete_contact user_id)
      (serve (DELETE_delete_contact user_id) t).2
    = (Ok (msg_not_found, 400), (serve (DELETE_delete_contact user_id) t).2).
Proof.
  intros _. rewrite serve_delete. split; [apply lookup_delete_eq|]. split.
  - intros j Hj. by apply lookup_delete_ne.
  - unfold serve, route. rewrite delete_contact_unknown; [done|].
    apply lookup_delete_eq.
Qed.

(** X7. Creating a contact and then deleting the id it was given restores
    the table; if the create was refused, that id is unknown and the
    delete changes nothing either. *)
Theorem create_then_delete_restores_table
    (t : gmap Z Contact) (json : gmap string field) :
  (serve (DELETE_delete_contact (next_id t))
     (serve (POST_create_contact json) t).2).2 = t.
Proof.
  rewrite serve_delete.
  destruct (serve_create json t) as [-> | (_ & _ & ->)].
  - apply delete_id, next_id_fresh.
  - rewrite delete_insert_eq. apply delete_id, next_id_fresh.
Qed.

Lemma dict_get_twice (data : gmap string field) key v :
  dict_get data key (dict_get data key v) = dict_get data key v.
Proof. unfold dict_get. by destruct (data !! key). Qed.

Lemma assigned_twice c data : assigned (assigned c data) data = assigned c data.
Proof.
  unfold assigned. cbn [id first_name last_name email].
  by rewrite !dict_get_twice.
Qed.

Lemma flush1_update_same t k c :
  t !! k = Some c → flush1 t (Update k c) = Ok t.
Proof.
  intros Hk. cbn [flush1]. rewrite Hk. unfold sets_null.
  rewrite !bool_decide_eq_true_2 by done. rewrite !andb_false_r.
  cbn [orb]. by rewrite insert_id.
Qed.

(** X8. PATCH is idempotent: sending the same update a second time gives
    the same outcome and leaves the table as the first one left it. *)
Theorem update_twice_is_update_once
    (t : gmap Z Contact) (user_id : Z) (data : gmap string field) :
  serve (PATCH_update_contact user_id data)
    (serve (PATCH_update_contact user_id data) t).2
  = serve (PATCH_update_contact user_id data) t.
Proof.
  unfold serve at 2 3, route. destruct (t !! user_id) as [c|] eqn:Hk.
  - rewrite (updata_contact_run _ _ _ _ Hk).
    destruct (flush1_update t user_id c (assigned c data) Hk)
      as [(-> & _) | E].
    + cbn [fst snd table fresh]. unfold serve, route.
      rewrite (updata_contact_run _ _ _ (assigned c data))
        by apply lookup_insert_eq.
      rewrite assigned_twice.
      rewrite flush1_update_same by apply lookup_insert_eq. done.
    + rewrite E. cbn [fst snd table]. unfold serve, route.
      rewrite (updata_contact_run _ _ _ _ Hk), E. done.
  - rewrite updata_contact_unknown by done. cbn [fst snd].
    unfold serve, route. by rewrite updata_contact_unknown.
Qed.

(** ** What the engine refuses to an update *)

(** X9. A PATCH that carries [null] for a field the contact has a value
    in is refused by the [nullable=False] column: the view raises
    [IntegrityError] and the table is the one before the request. *)
Theorem update_to_null_is_refused
    (t : gmap Z Contact) (user_id : Z) (data : gmap string field) c :
  t !! user_id = Some c →
  data !! "firstName" = Some PyNone ∧ first_name c ≠ PyNone
  ∨ data !! "lastName" = Some PyNone ∧ last_name c ≠ PyNone
  ∨ data !! "email" = Some PyNone ∧ email c ≠ PyNone →
  serve (PATCH_update_contact user_id data) t = (Raise IntegrityError, t).
Proof.
  intros Hk H. unfold serve, route. rewrite (updata_contact_run _ _ _ _ Hk).
  assert (Hs : ∀ old, old ≠ PyNone → sets_null old PyNone = true).
  { intros old Ho. unfold sets_null. by rewrite bool_decide_eq_false_2. }
  assert (E : flush1 t (Update user_id (assigned c data))
              = Raise IntegrityError).
  { cbn [flush1]. rewrite Hk. unfold assigned, dict_get.
    cbn [first_name last_name email].
    destruct H as [[-> Hn] | [[-> Hn] | [-> Hn]]]; rewrite (Hs _ Hn);
      by rewrite ?orb_true_r. }
  by rewrite E.
Qed.

(** X10. A PATCH that moves a contact to an e-mail another contact has is
    refused by the [unique=True] column: the view raises [IntegrityError]
    and the table is the one before the request. *)
Theorem update_to_taken_email_is_refused
    (t : gmap Z Contact) (user_id : Z) (data : gmap string field) c j d e :
  t !! user_id = Some c →
  t !! j = Some d →
  email d = PyStr e →
  email c ≠ PyStr e →
  data !! "email" = Some (PyStr e) →
  serve (PATCH_update_contact user_id data) t = (Raise IntegrityError, t).
Proof.
  intros Hk Hj Hd Hc He.
  assert (Ha : email (assigned c data) = PyStr e).
  { unfold assigned, dict_get. cbn [email]. by rewrite He. }
  assert (E : flush1 t (Update user_id (assigned c data))
              = Raise IntegrityError).
  { destruct (flush1_update t user_id c (assigned c data) Hk)
      as [(_ & [Heq | Hfree] & _) | E]; [| |done].
    - congruence.
    - destruct (Hfree j d Hj). congruence. }
  unfold serve, route. rewrite (updata_contact_run _ _ _ _ Hk), E. done.
Qed.

(** ** What a client sees in the list *)

Lemma reachable_keeps (P : gmap Z Contact → Prop) :
  P ∅ → (∀ r t, P t → P (serve r t).2) → ∀ t, reachable t → P t.
Proof. intros H0 HS t. induction 1; auto. Qed.

Lemma ids_match_keys_empty : ids_match_keys ∅.
Proof. intros k c Hk. by rewrite lookup_empty in Hk. Qed.

Lemma rows_of_lookup (t : gmap Z Contact) i c :
  rows_of t !! i = Some c →
  ∃ k, merge_sort key_le (map_to_list t) !! i = Some (k, c)
       ∧ t !! k = Some c.
Proof.
  unfold rows_of. rewrite list_lookup_fmap.
  destruct (merge_sort key_le (map_to_list t) !! i) as [[k c']|] eqn:E;
    [|done].
  intros [= ->]. exists k. split; [done|].
  apply elem_of_map_to_list. rewrite <- (merge_sort_Permutation key_le).
  by apply list_elem_of_lookup_2 with i.
Qed.

(** X11. The rows that GET /contacts serialises for a reachable table
    never show the same id twice, nor the same e-mail twice. *)
Theorem list_has_no_duplicate_id_or_email (t : gmap Z Contact) i j c d :
  reachable t →
  rows_of t !! i = Some c →
  rows_of t !! j = Some d →
  id c = id d ∨ email c = email d →
  query.all (fresh t) = (Ok (rows_of t), fresh t) ∧ i = j.
Proof.
  intros Hr Hi Hj Hsame. split; [done|].
  apply rows_of_lookup in Hi as (k & Li & Hk).
  apply rows_of_lookup in Hj as (k' & Lj & Hk').
  assert (k = k') as <-.
  { destruct Hsame as [Hid | Hem].
    - pose proof (reachable_keeps _ ids_match_keys_empty
                    ids_match_keys_serve t Hr) as Hids.
      rewrite (Hids _ _ Hk), (Hids _ _ Hk') in Hid. congruence.
    - exact (reachable_keeps _ unique_emails_empty unique_emails_serve
               t Hr k k' c d Hk Hk' Hem). }
  assert (c = d) as <- by congruence.
  assert (Hnd : NoDup (merge_sort key_le (map_to_list t))).
  { rewrite merge_sort_Permutation. apply NoDup_map_to_list. }
  exact (NoDup_lookup _ i j (k, c) Hnd Li Lj).
Qed.

(** X12. After DELETE of an id on a reachable table, the following
    GET /contacts lists no entry with that id. *)
Theorem deleted_contact_is_not_listed (t : gmap Z Contact) (user_id : Z) :
  reachable t →
  ∃ items,
    serve GET_contacts (serve (DELETE_delete_contact user_id) t).2
    = (Ok (ODict [("contacts", OList items)], 200),
       (serve (DELETE_delete_contact user_id) t).2)
    ∧ ∀ rest, ODict (("id", OInt user_id) :: rest) ∉ items.
Proof.
  intros Hr. rewrite serve_delete, serve_get, get_contacts_run.
  eexists. split; [done|]. cbn [table fresh].
  intros rest [c [Hc Hin]]%list_elem_of_In%in_map_iff.
  apply list_elem_of_In, elem_of_rows_of in Hin as [k Hk].
  apply lookup_delete_Some in Hk as [Hne Hk].
  pose proof (reachable_keeps _ ids_match_keys_empty
                ids_match_keys_serve t Hr k c Hk) as Hid.
  unfold to_json in Hc. rewrite Hid in Hc. cbn in Hc. congruence.
Qed.

(** X13. A PATCH is committed whenever none of the values it carries is
    [null] and the e-mail it carries, if any, is the contact's own or one
    no contact has: the row then holds every supplied value, although the
    view goes on to raise on its response. *)
Theorem update_is_committed_when_acceptable
    (t : gmap Z Contact) (user_id : Z) (data : gmap string field) c :
  t !! user_id = Some c →
  data !! "firstName" ≠ Some PyNone →
  data !! "lastName" ≠ Some PyNone →
  data !! "email" ≠ Some PyNone →
  (data !! "email" = None ∨ data !! "email" = Some (email c)
   ∨ ∃ e, data !! "email" = Some e ∧ email_free t e) →
  serve (PATCH_update_contact user_id data) t
  = (Raise TypeError, <[user_id := assigned c data]> t).
Proof.
  intros Hk Nf Nl Ne He. unfold serve, route.
  rewrite (updata_contact_run _ _ _ _ Hk).
  assert (Hs : ∀ key old, data !! key ≠ Some PyNone →
                 sets_null old (dict_get data key old) = false).
  { intros key old Hn. unfold sets_null, dict_get.
    destruct (data !! key) as [[|s]|]; [done|done|].
    rewrite bool_decide_eq_true_2 by done. apply andb_false_r. }
  cbn [flush1]. rewrite Hk. unfold assigned. cbn [first_name last_name email].
  rewrite !Hs by done. cbn [orb].
  assert (Hok : bool_decide (email c = dict_get data "email" (email c))
                || bool_decide (email_free t (dict_get data "email" (email c)))
                = true).
  { unfold dict_get. destruct He as [-> | [-> | (e & -> & Hfree)]].
    - by rewrite (bool_decide_eq_true_2 (email c = email c)).
    - by rewrite (bool_decide_eq_true_2 (email c = email c)).
    - rewrite (bool_decide_eq_true_2 (email_free t e)) by done.
      apply orb_true_r. }
  by rewrite Hok.
Qed.

(** ** The further properties at concrete requests *)

Lemma to_json_injective_witness :
  to_json row_A = to_json row_A ∧ row_A = row_A.
Proof.
  assert (H : to_json row_A = to_json row_A) by reflexivity.
  exact (conj H (to_json_injective row_A row_A H)).
Defined.

Lemma delete_removes_one_row_then_400_witness :
  is_Some (two_contacts !! 1)
  ∧ (serve (DELETE_delete_contact 1) two_contacts).2 !! 1 = None
  ∧ (serve (DELETE_delete_contact 1) two_contacts).2 !! 2 = Some row_C
  ∧ serve (DELETE_delete_contact 1)
      (serve (DELETE_delete_contact 1) two_contacts).2
    = (Ok (msg_not_found, 400),
       (serve (DELETE_delete_contact 1) two_contacts).2).
Proof.
  assert (H : is_Some (two_contacts !! 1)).
  { exists row_A. by_running. }
  destruct (delete_removes_one_row_then_400 two_contacts 1 H)
    as (Hgone & Hrest & Hagain).
  split; [exact H|]. split; [exact Hgone|]. split; [|exact Hagain].
  rewrite (Hrest 2) by discriminate. by_running.
Defined.

Lemma id_is_primary_key_in_reachable_tables_witness :
  reachable two_contacts ∧ ids_match_keys two_contacts.
Proof.
  assert (H : reachable two_contacts).
  { apply reachable_serve, reachable_serve, reachable_empty. }
  exact (conj H (id_is_primary_key_in_reachable_tables two_contacts H)).
Defined.

Lemma no_null_field_in_reachable_tables_witness :
  reachable two_contacts ∧ no_nulls two_contacts.
Proof.
  assert (H : reachable two_contacts).
  { apply reachable_serve, reachable_serve, reachable_empty. }
  exact (conj H (no_null_field_in_reachable_tables two_contacts H)).
Defined.

Lemma update_to_null_is_refused_witness :
  one_contact !! 1 = Some row_A
  ∧ ({[ "lastName" := PyNone ]} : gmap string field) !! "lastName"
    = Some PyNone
  ∧ last_name row_A ≠ PyNone
  ∧ serve (PATCH_update_contact 1 {[ "lastName" := PyNone ]}) one_contact
    = (Raise IntegrityError, one_contact).
Proof.
  assert (H1 : one_contact !! 1 = Some row_A) by by_running.
  assert (H2 : ({[ "lastName" := PyNone ]} : gmap string field) !! "lastName"
               = Some PyNone) by by_running.
  assert (H3 : last_name row_A ≠ PyNone) by discriminate.
  exact (conj H1 (conj H2 (conj H3
    (update_to_null_is_refused one_contact 1 _ row_A H1
       (or_intror (or_introl (conj H2 H3))))))).
Defined.

Lemma update_to_taken_email_is_refused_witness :
  two_contacts !! 2 = Some row_C
  ∧ two_contacts !! 1 = Some row_A
  ∧ email row_A = PyStr "a@b.com"
  ∧ email row_C ≠ PyStr "a@b.com"
  ∧ ({[ "email" := PyStr "a@b.com" ]} : gmap string field) !! "email"
    = Some (PyStr "a@b.com")
  ∧ serve (PATCH_update_contact 2 {[ "email" := PyStr "a@b.com" ]})
      two_contacts
    = (Raise IntegrityError, two_contacts).
Proof.
  assert (H1 : two_contacts !! 2 = Some row_C) by by_running.
  assert (H2 : two_contacts !! 1 = Some row_A) by by_running.
  assert (H3 : email row_A = PyStr "a@b.com") by reflexivity.
  assert (H4 : email row_C ≠ PyStr "a@b.com") by discriminate.
  assert (H5 : ({[ "email" := PyStr "a@b.com" ]} : gmap string field)
               !! "email" = Some (PyStr "a@b.com")) by by_running.
  exact (conj H1 (conj H2 (conj H3 (conj H4 (conj H5
    (update_to_taken_email_is_refused two_contacts 2 _ row_C 1 row_A
       "a@b.com" H1 H2 H3 H4 H5)))))).
Defined.

Lemma list_has_no_duplicate_id_or_email_witness :
  reachable two_contacts
  ∧ rows_of two_contacts !! 0%nat = Some row_A
  ∧ (id row_A = id row_A ∨ email row_A = email row_A)
  ∧ query.all (fresh two_contacts) = (Ok (rows_of two_contacts),
                                      fresh two_contacts)
  ∧ 0%nat = 0%nat.
Proof.
  assert (H1 : reachable two_contacts).
  { apply reachable_serve, reachable_serve, reachable_empty. }
  assert (H2 : rows_of two_contacts !! 0%nat = Some row_A) by by_running.
  assert (H3 : id row_A = id row_A ∨ email row_A = email row_A)
    by (left; reflexivity).
  exact (conj H1 (conj H2 (conj H3
    (list_has_no_duplicate_id_or_email two_contacts 0 0 row_A row_A
       H1 H2 H2 H3)))).
Defined.

Lemma deleted_contact_is_not_listed_witness :
  reachable two_contacts
  ∧ ∃ items,
      serve GET_contacts (serve (DELETE_delete_contact 1) two_contacts).2
      = (Ok (ODict [("contacts", OList items)], 200),
         (serve (DELETE_delete_contact 1) two_contacts).2)
      ∧ ∀ rest, ODict (("id", OInt 1) :: rest) ∉ items.
Proof.
  assert (H : reachable two_contacts).
  { apply reachable_serve, reachable_serve, reachable_empty. }
  exact (conj H (deleted_contact_is_not_listed two_contacts 1 H)).
Defined.

Lemma update_is_committed_when_acceptable_witness :
  one_contact !! 1 = Some row_A
  ∧ email_free one_contact (PyStr "new@x.com")
  ∧ serve (PATCH_update_contact 1 {[ "email" := PyStr "new@x.com" ]})
      one_contact
    = (Raise TypeError,
       <[1 := assigned row_A {[ "email" := PyStr "new@x.com" ]}]> one_contact).
Proof.
  assert (H1 : one_contact !! 1 = Some row_A) by by_running.
  assert (H2 : email_free one_contact (PyStr "new@x.com")).
  { refine (bool_decide_unpack
              (email_free one_contact (PyStr "new@x.com")) _).
    by_running. }
  split; [exact H1|]. split; [exact H2|].
  apply (update_is_committed_when_acceptable one_contact 1
           {[ "email" := PyStr "new@x.com" ]} row_A H1).
  - by_running.
  - by_running.
  - by_running.
  - right. right. exists (PyStr "new@x.com"). split; [by_running|exact H2].
Defined.
